(** * Polly-API client ([api/client.py]): a shallow embedding

    The module offers three functions, [fetch_polls], [cast_vote] and
    [get_poll_results].  Each one performs a single HTTP call through a
    transport (a [requests.Session], or the [requests] module itself),
    inspects the status code and either returns the decoded JSON body or
    raises an exception of its own class.

    Python values are modelled as follows.
    - [int] is [Z]; an integer inside an f-string is printed in decimal
      ([pretty]).
    - [str] is [string]; every character stands for one code point below 256.
    - a [dict] whose entry order is visible (query parameters, JSON objects)
      is an association list; the header dictionary, which the code fills by
      key, is a [gmap].
    - exceptions are values of an error type, and a call runs in a small
      state-and-error monad whose state is the list of requests put on the
      wire so far. *)

From stdpp Require Import base option list strings gmap pretty.
From Stdlib Require Import ZArith QArith Ascii.

Set Warnings "-register-all".

Local Open Scope Z_scope.

(** ** Strings *)

Module Str.

(** [s.rstrip(chars)]: drop the longest suffix made of characters that
    satisfy [p]. *)
Fixpoint rstrip (p : ascii → bool) (s : string) : string :=
  match s with
  | "" => ""
  | String a s' =>
      match rstrip p s' with
      | "" => if p a then "" else String a ""
      | r => String a r
      end
  end.

(** [s.lstrip(chars)]. *)
Fixpoint lstrip (p : ascii → bool) (s : string) : string :=
  match s with
  | "" => ""
  | String a s' => if p a then lstrip p s' else s
  end.

(** Membership in the one-character set of [rstrip('/')]. *)
Definition is_slash (a : ascii) : bool := bool_decide (a = "/"%char).

(** [str.isspace] on one code point below 256: TAB, LF, VT, FF, CR, the
    separators FS, GS, RS, US, the space, NEL and the no-break space. *)
Definition isspace (a : ascii) : bool :=
  let n := N_of_ascii a in
  ((9 <=? n) && (n <=? 13) || (28 <=? n) && (n <=? 32)
   || (n =? 133) || (n =? 160))%N.

(** [s.strip()] without argument: white space removed at both ends. *)
Definition strip (s : string) : string := lstrip isspace (rstrip isspace s).

(** Truthiness of a [str]: the empty string is falsy. *)
Definition truthy (s : string) : bool :=
  match s with "" => false | _ => true end.

(** [a or b] on strings. *)
Definition or_else (a b : string) : string := if truthy a then a else b.

(** [a or b] where [a] may also be [None]. *)
Definition opt_or (a : option string) (b : string) : string :=
  match a with
  | Some s => or_else s b
  | None => b
  end.

(** [s.startswith(p)]. *)
Fixpoint startswith (p s : string) : bool :=
  match p, s with
  | "", _ => true
  | String a p', String b s' => bool_decide (a = b) && startswith p' s'
  | String _ _, "" => false
  end.

(** [p in s]: [p] occurs in [s] as a contiguous substring. *)
Fixpoint contains (p s : string) : bool :=
  startswith p s ||
  match s with
  | "" => false
  | String _ s' => contains p s'
  end.

(** [s.endswith(p)]. *)
Fixpoint endswith (p s : string) : bool :=
  bool_decide (p = s) ||
  match s with
  | "" => false
  | String _ s' => endswith p s'
  end.

(** [all(p(c) for c in s)]. *)
Fixpoint all (p : ascii → bool) (s : string) : bool :=
  match s with
  | "" => true
  | String a s' => p a && all p s'
  end.

(** [s[0]] and [s[-1]]; [None] stands for [IndexError] on the empty string. *)
Definition head (s : string) : option ascii :=
  match s with
  | "" => None
  | String a _ => Some a
  end.

Fixpoint last (s : string) : option ascii :=
  match s with
  | "" => None
  | String a "" => Some a
  | String _ s' => last s'
  end.

(** [ch * n]. *)
Fixpoint replicate (n : nat) (a : ascii) : string :=
  match n with
  | O => ""
  | S n' => String a (replicate n' a)
  end.

End Str.

(** ** JSON values, as [Response.json()] hands them to Python *)

Inductive JSON : Type :=
| JNull
| JBool (b : bool)
| JInt (n : Z)
| JFloat (literal : string)
| JStr (s : string)
| JList (items : list JSON)
| JDict (entries : list (string * JSON)).

(** [d[key]] on a decoded object; [None] stands for [KeyError] (and for
    subscripting a value that is not an object). *)
Fixpoint assoc (key : string) (entries : list (string * JSON)) : option JSON :=
  match entries with
  | [] => None
  | (k, v) :: rest => if bool_decide (k = key) then Some v else assoc key rest
  end.

Definition item (key : string) (v : JSON) : option JSON :=
  match v with
  | JDict entries => assoc key entries
  | _ => None
  end.

Definition as_int (v : JSON) : option Z :=
  match v with JInt n => Some n | _ => None end.

Definition as_str (v : JSON) : option string :=
  match v with JStr s => Some s | _ => None end.

Definition as_list (v : JSON) : option (list JSON) :=
  match v with JList l => Some l | _ => None end.

(** ** The declared shapes ([TypedDict] classes) *)

Module OptionOut.
Record t := { id : Z; text : string; poll_id : Z }.
End OptionOut.

Module PollOut.
Record t := {
  id : Z;
  question : string;
  created_at : string;
  owner_id : Z;
  options : list OptionOut.t }.
End PollOut.

Module VoteOut.
Record t := { id : Z; user_id : Z; option_id : Z; created_at : string }.
End VoteOut.

Module PollResultItem.
Record t := { option_id : Z; text : string; vote_count : Z }.
End PollResultItem.

Module PollResults.
Record t := {
  poll_id : Z;
  question : string;
  results : list PollResultItem.t }.
End PollResults.

(** A [TypedDict] is a plain [dict] at run time.  [to_json] gives the JSON
    object that carries a record, and [of_json] reads a record back by
    subscripting with the declared keys. *)
Class Shape (A : Type) := {
  to_json : A → JSON;
  of_json : JSON → option A }.

Definition of_json_list `{Shape A} (v : JSON) : option (list A) :=
  l ← as_list v; mapM of_json l.

#[export] Instance OptionOut_shape : Shape OptionOut.t := {|
  to_json o := JDict [("id", JInt (OptionOut.id o));
                      ("text", JStr (OptionOut.text o));
                      ("poll_id", JInt (OptionOut.poll_id o))];
  of_json v :=
    i ← item "id" v ≫= as_int;
    t ← item "text" v ≫= as_str;
    p ← item "poll_id" v ≫= as_int;
    Some {| OptionOut.id := i; OptionOut.text := t; OptionOut.poll_id := p |}
|}.

#[export] Instance PollOut_shape : Shape PollOut.t := {|
  to_json p := JDict [("id", JInt (PollOut.id p));
                      ("question", JStr (PollOut.question p));
                      ("created_at", JStr (PollOut.created_at p));
                      ("owner_id", JInt (PollOut.owner_id p));
                      ("options", JList (to_json <$> PollOut.options p))];
  of_json v :=
    i ← item "id" v ≫= as_int;
    q ← item "question" v ≫= as_str;
    c ← item "created_at" v ≫= as_str;
    o ← item "owner_id" v ≫= as_int;
    os ← item "options" v ≫= of_json_list;
    Some {| PollOut.id := i; PollOut.question := q; PollOut.created_at := c;
            PollOut.owner_id := o; PollOut.options := os |}
|}.

#[export] Instance VoteOut_shape : Shape VoteOut.t := {|
  to_json x := JDict [("id", JInt (VoteOut.id x));
                      ("user_id", JInt (VoteOut.user_id x));
                      ("option_id", JInt (VoteOut.option_id x));
                      ("created_at", JStr (VoteOut.created_at x))];
  of_json v :=
    i ← item "id" v ≫= as_int;
    u ← item "user_id" v ≫= as_int;
    o ← item "option_id" v ≫= as_int;
    c ← item "created_at" v ≫= as_str;
    Some {| VoteOut.id := i; VoteOut.user_id := u; VoteOut.option_id := o;
            VoteOut.created_at := c |}
|}.

#[export] Instance PollResultItem_shape : Shape PollResultItem.t := {|
  to_json x := JDict [("option_id", JInt (PollResultItem.option_id x));
                      ("text", JStr (PollResultItem.text x));
                      ("vote_count", JInt (PollResultItem.vote_count x))];
  of_json v :=
    o ← item "option_id" v ≫= as_int;
    t ← item "text" v ≫= as_str;
    c ← item "vote_count" v ≫= as_int;
    Some {| PollResultItem.option_id := o; PollResultItem.text := t;
            PollResultItem.vote_count := c |}
|}.

#[export] Instance PollResults_shape : Shape PollResults.t := {|
  to_json x := JDict [("poll_id", JInt (PollResults.poll_id x));
                      ("question", JStr (PollResults.question x));
                      ("results", JList (to_json <$> PollResults.results x))];
  of_json v :=
    p ← item "poll_id" v ≫= as_int;
    q ← item "question" v ≫= as_str;
    rs ← item "results" v ≫= of_json_list;
    Some {| PollResults.poll_id := p; PollResults.question := q;
            PollResults.results := rs |}
|}.

(** ** Exceptions *)

(** What the [requests] library raises: [requests.HTTPError] (from
    [raise_for_status]) or an exception of another class, named by [cls]
    ([Timeout], [ConnectionError], [JSONDecodeError], ...). *)
Inductive requests_exn : Type :=
| HTTPError (msg : string)
| RequestsError (cls : string) (msg : string).

(** [str(e)]. *)
Definition str (e : requests_exn) : string :=
  match e with
  | HTTPError msg => msg
  | RequestsError _ msg => msg
  end.

(** What a client function raises: one of the three classes of the module,
    with its message and the [__cause__] set by [raise ... from e], or an
    exception of the library that passes through untouched. *)
Inductive exn : Type :=
| PollsFetchError (msg : string) (cause : option requests_exn)
| VotingError (msg : string) (cause : option requests_exn)
| PollResultsFetchError (msg : string) (cause : option requests_exn)
| Uncaught (e : requests_exn).

(** ** Requests, responses and transports *)

Inductive http_method : Type := GET | POST.

(** One call [http.get(url, params=..., timeout=...)] or
    [http.post(url, json=..., headers=..., timeout=...)]; a keyword that the
    call does not pass, or passes as [None], is [None].  The time-out is a
    [float] in the source; it is only forwarded. *)
Record Request := {
  req_method : http_method;
  req_url : string;
  req_params : option (list (string * Z));
  req_json : option JSON;
  req_headers : option (gmap string string);
  req_timeout : Q }.

(** The parts of a response object the client touches: the attributes
    [status_code] and [text], and the outcome of the calls [json()] and
    [raise_for_status()] ([None]: the call returns). *)
Record Response := {
  status_code : Z;
  text : option string;
  json : requests_exn + JSON;
  raise_for_status : option requests_exn }.

(** A transport answers a request with a response or raises. *)
Definition Transport : Type := Request → requests_exn + Response.

(** A session object as the client uses it: its truth value, which
    [session or requests] tests, and its behaviour as a transport.  A plain
    [requests.Session] is truthy; an object of a subclass that defines
    [__bool__] or [__len__] may be falsy. *)
Record Session := {
  session_truthy : bool;
  session_http : Transport }.

(** Value of header [name] on a request, if it is sent. *)
Definition header (name : string) (r : Request) : option string :=
  h ← req_headers r; h !! name.

(** ** The monad of client code *)

Inductive outcome (A : Type) : Type :=
| Returned (a : A)
| Raised (e : exn).
Arguments Returned {A} a.
Arguments Raised {A} e.

(** A computation maps the wire log to an outcome and the extended log. *)
Definition IO (A : Type) : Type := list Request → outcome A * list Request.

#[export] Instance IO_ret : MRet IO := λ A a wire, (Returned a, wire).

#[export] Instance IO_bind : MBind IO := λ A B k m wire,
  match m wire with
  | (Returned a, wire') => k a wire'
  | (Raised e, wire') => (Raised e, wire')
  end.

Definition raise {A : Type} (e : exn) : IO A := λ wire, (Raised e, wire).

(** Lift a call into the library: its exception, if any, is in flight. *)
Definition lift {A : Type} (r : requests_exn + A) : IO A :=
  match r with
  | inl e => raise (Uncaught e)
  | inr a => mret a
  end.

(** [try: body except requests.HTTPError as e: handler e]. *)
Definition try_except_HTTPError {A : Type}
    (body : IO A) (handler : requests_exn → IO A) : IO A := λ wire,
  match body wire with
  | (Raised (Uncaught (HTTPError msg)), wire') => handler (HTTPError msg) wire'
  | res => res
  end.

(** Put a request on the wire and wait for the transport. *)
Definition send (http : Transport) (r : Request) : IO Response := λ wire,
  lift (http r) (wire ++ [r]).

(** [http.get(url, params=params, timeout=timeout)]. *)
Definition http_get (http : Transport) (url : string)
    (params : option (list (string * Z))) (timeout : Q) : IO Response :=
  send http {| req_method := GET; req_url := url; req_params := params;
               req_json := None; req_headers := None;
               req_timeout := timeout |}.

(** [http.post(url, json=body, headers=headers, timeout=timeout)]. *)
Definition http_post (http : Transport) (url : string) (body : JSON)
    (headers : option (gmap string string)) (timeout : Q) : IO Response :=
  send http {| req_method := POST; req_url := url; req_params := None;
               req_json := Some body; req_headers := headers;
               req_timeout := timeout |}.

(** [resp.json()] and [resp.raise_for_status()]. *)
Definition call_json (resp : Response) : IO JSON := lift (json resp).

Definition call_raise_for_status (resp : Response) : IO unit :=
  match raise_for_status resp with
  | Some e => raise (Uncaught e)
  | None => mret tt
  end.

(** [headers or None]: an empty [dict] is falsy. *)
Definition dict_or_None (h : gmap string string) : option (gmap string string) :=
  if bool_decide (h = ∅) then None else Some h.

(** ** The client *)

Definition default_base_url : string := "http://localhost:8000".
Definition default_timeout : Q := 10 # 1.

Section Client.

(** The module [requests], used when no session is given. *)
Variable requests : Transport.

(** [session or requests]: the session if it is given and truthy, the
    module otherwise. *)
Definition session_or_requests (session : option Session) : Transport :=
  match session with
  | Some s => if session_truthy s then session_http s else requests
  | None => requests
  end.

Definition fetch_polls (skip limit : Z) (base_url : string) (timeout : Q)
    (session : option Session) : IO JSON :=
  let http := session_or_requests session in
  let url := Str.rstrip Str.is_slash base_url +:+ "/polls" in
  let params := [("skip", skip); ("limit", limit)] in
  resp ← http_get http url (Some params) timeout;
  if bool_decide (status_code resp = 200) then
    data ← call_json resp;
    mret data
  else
    try_except_HTTPError (call_raise_for_status resp) (λ e,
      let text := Str.strip (Str.opt_or (text resp) "") in
      raise (PollsFetchError
               ("GET /polls failed (" +:+ pretty (status_code resp) +:+ "): "
                +:+ Str.or_else text (str e))
               (Some e)));;
    raise (PollsFetchError
             ("Unexpected status code " +:+ pretty (status_code resp)) None).

Definition cast_vote (poll_id option_id : Z) (base_url : string) (timeout : Q)
    (session : option Session) (bearer_token : option string) : IO JSON :=
  let http := session_or_requests session in
  let url := Str.rstrip Str.is_slash base_url
             +:+ "/polls/" +:+ pretty poll_id +:+ "/vote" in
  let headers : gmap string string := ∅ in
  let headers :=
    match bearer_token with
    | Some token =>
        if Str.truthy token
        then <["Authorization" := "Bearer " +:+ token]> headers
        else headers
    | None => headers
    end in
  resp ← http_post http url (JDict [("option_id", JInt option_id)])
           (dict_or_None headers) timeout;
  if bool_decide (status_code resp = 200) then
    call_json resp
  else
    try_except_HTTPError (call_raise_for_status resp) (λ e,
      let text := Str.strip (Str.opt_or (text resp) "") in
      raise (VotingError
               ("POST /polls/" +:+ pretty poll_id +:+ "/vote failed ("
                +:+ pretty (status_code resp) +:+ "): "
                +:+ Str.or_else text (str e))
               (Some e)));;
    raise (VotingError
             ("Unexpected status code " +:+ pretty (status_code resp)) None).

Definition get_poll_results (poll_id : Z) (base_url : string) (timeout : Q)
    (session : option Session) : IO JSON :=
  let http := session_or_requests session in
  let url := Str.rstrip Str.is_slash base_url
             +:+ "/polls/" +:+ pretty poll_id +:+ "/results" in
  resp ← http_get http url None timeout;
  if bool_decide (status_code resp = 200) then
    call_json resp
  else
    try_except_HTTPError (call_raise_for_status resp) (λ e,
      let text := Str.strip (Str.opt_or (text resp) "") in
      raise (PollResultsFetchError
               ("GET /polls/" +:+ pretty poll_id +:+ "/results failed ("
                +:+ pretty (status_code resp) +:+ "): "
                +:+ Str.or_else text (str e))
               (Some e)));;
    raise (PollResultsFetchError
             ("Unexpected status code " +:+ pretty (status_code resp)) None).

End Client.

(** ** The library side

    [requests] is a dependency of the module.  What its responses do when
    [raise_for_status()] is called is recorded here so that concrete
    responses are ones the library can produce: [HTTPError] for a status in
    400..599, a plain return otherwise. *)

Module Requests.

Definition http_error_msg (status : Z) (reason url : string) : option string :=
  if bool_decide (400 ≤ status < 500) then
    Some (pretty status +:+ " Client Error: " +:+ reason +:+ " for url: " +:+ url)
  else if bool_decide (500 ≤ status < 600) then
    Some (pretty status +:+ " Server Error: " +:+ reason +:+ " for url: " +:+ url)
  else None.

(** A response with the given status line and body, received for a request
    to [url]; [decoded] is what [json()] makes of the body. *)
Definition response (status : Z) (reason url body : string)
    (decoded : requests_exn + JSON) : Response :=
  {| status_code := status;
     text := Some body;
     json := decoded;
     raise_for_status := HTTPError <$> http_error_msg status reason url |}.

(** A session whose server answers every request with [resp]. *)
Definition answering (resp : Response) : Transport := λ _, inr resp.

(** A session on which every call fails with [e] before any response. *)
Definition failing (e : requests_exn) : Transport := λ _, inl e.

End Requests.

(** The contract of [raise_for_status]: it raises [HTTPError] or returns. *)
Definition raises_only_HTTPError (resp : Response) : Prop :=
  ∀ e, raise_for_status resp = Some e → ∃ msg, e = HTTPError msg.

(** ** The three operations under one roof *)

Inductive operation : Type :=
| FetchPolls (skip limit : Z)
| CastVote (poll_id option_id : Z) (bearer_token : option string)
| GetPollResults (poll_id : Z).

Definition run (requests : Transport) (op : operation) (base_url : string)
    (timeout : Q) (session : option Session) : IO JSON :=
  match op with
  | FetchPolls skip limit =>
      fetch_polls requests skip limit base_url timeout session
  | CastVote poll_id option_id bearer_token =>
      cast_vote requests poll_id option_id base_url timeout session bearer_token
  | GetPollResults poll_id =>
      get_poll_results requests poll_id base_url timeout session
  end.

(** The error class that belongs to an operation. *)
Definition own_error (op : operation) : string → option requests_exn → exn :=
  match op with
  | FetchPolls _ _ => PollsFetchError
  | CastVote _ _ _ => VotingError
  | GetPollResults _ => PollResultsFetchError
  end.

(** Class membership, for statements about what is and is not raised. *)
Inductive error_class : Type :=
| ClsPollsFetchError | ClsVotingError | ClsPollResultsFetchError | ClsLibrary.

Definition class_of (e : exn) : error_class :=
  match e with
  | PollsFetchError _ _ => ClsPollsFetchError
  | VotingError _ _ => ClsVotingError
  | PollResultsFetchError _ _ => ClsPollResultsFetchError
  | Uncaught _ => ClsLibrary
  end.

Definition own_class (op : operation) : error_class :=
  match op with
  | FetchPolls _ _ => ClsPollsFetchError
  | CastVote _ _ _ => ClsVotingError
  | GetPollResults _ => ClsPollResultsFetchError
  end.

(** Message and cause of a client error. *)
Definition message (e : exn) : string :=
  match e with
  | PollsFetchError m _ | VotingError m _ | PollResultsFetchError m _ => m
  | Uncaught e => str e
  end.

Definition cause (e : exn) : option requests_exn :=
  match e with
  | PollsFetchError _ c | VotingError _ c | PollResultsFetchError _ c => c
  | Uncaught _ => None
  end.

(** The request line that opens the message of a translated error. *)
Definition endpoint (op : operation) : string :=
  match op with
  | FetchPolls _ _ => "GET /polls"
  | CastVote poll_id _ _ => "POST /polls/" +:+ pretty poll_id +:+ "/vote"
  | GetPollResults poll_id => "GET /polls/" +:+ pretty poll_id +:+ "/results"
  end.

(** Path appended to the base URL. *)
Definition path (op : operation) : string :=
  match op with
  | FetchPolls _ _ => "/polls"
  | CastVote poll_id _ _ => "/polls/" +:+ pretty poll_id +:+ "/vote"
  | GetPollResults poll_id => "/polls/" +:+ pretty poll_id +:+ "/results"
  end.

(** Body of a response as the error path reads it: [resp.text or ""]. *)
Definition body_text (resp : Response) : string := Str.opt_or (text resp) "".

(** The request an operation puts on the wire. *)
Definition request_of (op : operation) (base_url : string) (timeout : Q)
    : Request :=
  let url := Str.rstrip Str.is_slash base_url +:+ path op in
  match op with
  | FetchPolls skip limit =>
      {| req_method := GET; req_url := url;
         req_params := Some [("skip", skip); ("limit", limit)];
         req_json := None; req_headers := None; req_timeout := timeout |}
  | CastVote _ option_id bearer_token =>
      {| req_method := POST; req_url := url; req_params := None;
         req_json := Some (JDict [("option_id", JInt option_id)]);
         req_headers :=
           match bearer_token with
           | Some token =>
               if Str.truthy token
               then Some {[ "Authorization" := "Bearer " +:+ token ]}
               else None
           | None => None
           end;
         req_timeout := timeout |}
  | GetPollResults _ =>
      {| req_method := GET; req_url := url; req_params := None;
         req_json := None; req_headers := None; req_timeout := timeout |}
  end.

(** What an operation makes of the transport's answer. *)
Definition verdict (op : operation) (answer : requests_exn + Response)
    : outcome JSON :=
  match answer with
  | inl e => Raised (Uncaught e)
  | inr resp =>
      if bool_decide (status_code resp = 200) then
        match json resp with
        | inl e => Raised (Uncaught e)
        | inr v => Returned v
        end
      else
        match raise_for_status resp with
        | Some (HTTPError msg) =>
            Raised (own_error op
                      (endpoint op +:+ " failed (" +:+ pretty (status_code resp)
                       +:+ "): "
                       +:+ Str.or_else (Str.strip (body_text resp)) msg)
                      (Some (HTTPError msg)))
        | Some e => Raised (Uncaught e)
        | None =>
            Raised (own_error op
                      ("Unexpected status code " +:+ pretty (status_code resp))
                      None)
        end
  end.

(** ** Statements under test

    Two readings of the error path that the theorems below compare with the
    code: an error "carries" the status and a detail when both occur in its
    message, and its text is "taken from" the body or the exception when the
    message ends with it. *)

Definition carries_status_and_detail (resp : Response) (e : exn) : Prop :=
  Str.contains (pretty (status_code resp)) (message e) = true
  ∧ (Str.contains (body_text resp) (message e) = true
     ∨ ∃ h, cause e = Some h ∧ Str.contains (str h) (message e) = true).

Definition text_from_body_else_exception (resp : Response) (e : exn) : Prop :=
  if Str.truthy (body_text resp)
  then Str.endswith (body_text resp) (message e) = true
  else ∃ h, cause e = Some h ∧ Str.endswith (str h) (message e) = true.

(** ** Sample traffic *)

Module Sample.

(** A double quote, to write JSON text. *)
Definition dq : string := String "034" "".
Definition q (s : string) : string := dq +:+ s +:+ dq.

Definition polls_url : string := "http://localhost:8000/polls?skip=0&limit=2".
Definition vote_url : string := "http://localhost:8000/polls/7/vote".
Definition results_url : string := "http://localhost:8000/polls/7/results".

(** The stub of the documented example: one poll without options. *)
Definition poll : PollOut.t :=
  {| PollOut.id := 1; PollOut.question := "Q";
     PollOut.created_at := "2024-01-01T00:00:00Z";
     PollOut.owner_id := 1; PollOut.options := [] |}.

Definition polls_json : JSON :=
  JList [JDict [("id", JInt 1); ("question", JStr "Q");
                ("created_at", JStr "2024-01-01T00:00:00Z");
                ("owner_id", JInt 1); ("options", JList [])]].

Definition polls_ok : Response :=
  Requests.response 200 "OK" polls_url
    ("[{" +:+ q "id" +:+ ":1," +:+ q "question" +:+ ":" +:+ q "Q" +:+ ","
     +:+ q "created_at" +:+ ":" +:+ q "2024-01-01T00:00:00Z" +:+ ","
     +:+ q "owner_id" +:+ ":1," +:+ q "options" +:+ ":[]}]")
    (inr polls_json).

(** A 200 answer to [/polls] that is an object, not an array. *)
Definition detail_json : JSON := JDict [("detail", JStr "maintenance")].

Definition detail_ok : Response :=
  Requests.response 200 "OK" polls_url
    ("{" +:+ q "detail" +:+ ":" +:+ q "maintenance" +:+ "}")
    (inr detail_json).

Definition vote : VoteOut.t :=
  {| VoteOut.id := 31; VoteOut.user_id := 4; VoteOut.option_id := 12;
     VoteOut.created_at := "2024-05-02T09:30:00Z" |}.

Definition vote_ok : Response :=
  Requests.response 200 "OK" vote_url
    ("{" +:+ q "id" +:+ ":31," +:+ q "user_id" +:+ ":4,"
     +:+ q "option_id" +:+ ":12," +:+ q "created_at" +:+ ":"
     +:+ q "2024-05-02T09:30:00Z" +:+ "}")
    (inr (to_json vote)).

Definition poll_results : PollResults.t :=
  {| PollResults.poll_id := 7; PollResults.question := "Tea or coffee?";
     PollResults.results :=
       [ {| PollResultItem.option_id := 12; PollResultItem.text := "Tea";
            PollResultItem.vote_count := 5 |};
         {| PollResultItem.option_id := 13; PollResultItem.text := "Coffee";
            PollResultItem.vote_count := 3 |} ] |}.

Definition results_ok : Response :=
  Requests.response 200 "OK" results_url
    ("{" +:+ q "poll_id" +:+ ":7," +:+ q "question" +:+ ":"
     +:+ q "Tea or coffee?" +:+ "," +:+ q "results" +:+ ":[{"
     +:+ q "option_id" +:+ ":12," +:+ q "text" +:+ ":" +:+ q "Tea" +:+ ","
     +:+ q "vote_count" +:+ ":5},{"
     +:+ q "option_id" +:+ ":13," +:+ q "text" +:+ ":" +:+ q "Coffee" +:+ ","
     +:+ q "vote_count" +:+ ":3}]}")
    (inr (to_json poll_results)).

Definition not_json : requests_exn + JSON :=
  inl (RequestsError "JSONDecodeError"
         "Expecting value: line 1 column 1 (char 0)").

(** 404 with a plain-text body surrounded by blanks. *)
Definition not_found : Response :=
  Requests.response 404 "Not Found" polls_url "  no such poll  " not_json.

(** 404 whose body is three blanks. *)
Definition not_found_blank : Response :=
  Requests.response 404 "Not Found" polls_url "   " not_json.

(** 201: a success status other than 200. *)
Definition created : Response :=
  Requests.response 201 "Created" polls_url "created" not_json.

Definition timed_out : requests_exn :=
  RequestsError "ConnectTimeout" "connection to localhost timed out".

(** 200 with a body that is not JSON. *)
Definition html_ok : Response :=
  Requests.response 200 "OK" polls_url "<html>It works</html>" not_json.

(** A response object of a caller's own session class, whose
    [raise_for_status()] raises an exception that is no [HTTPError]. *)
Definition hook_failure : requests_exn :=
  RequestsError "RuntimeError" "response hook failed".

Definition hooked : Response :=
  {| status_code := 500; text := Some "boom"; json := not_json;
     raise_for_status := Some hook_failure |}.



(** 503 without a body. *)
Definition unavailable : Response :=
  Requests.response 503 "Service Unavailable" results_url "" not_json.

End Sample.

(** * Properties *)

(** ** Strings *)

Module StrFacts.
Import Str.

Lemma app_nil_l (s : string) : "" +:+ s = s.
Proof. reflexivity. Qed.

Lemma app_cons (a : ascii) (s t : string) :
  String a s +:+ t = String a (s +:+ t).
Proof. reflexivity. Qed.

Lemma app_nil_r (s : string) : s +:+ "" = s.
Proof.
  induction s as [|a s IH]; [reflexivity|].
  by rewrite app_cons, IH.
Qed.

Lemma app_assoc (s t u : string) : (s +:+ t) +:+ u = s +:+ (t +:+ u).
Proof.
  induction s as [|a s IH]; [reflexivity|].
  by rewrite !app_cons, IH.
Qed.

Lemma startswith_app (p s : string) : startswith p (p +:+ s) = true.
Proof.
  induction p as [|a p IH]; [reflexivity|].
  rewrite app_cons. simpl. rewrite bool_decide_eq_true_2 by done. exact IH.
Qed.

Lemma contains_app (p a b : string) : contains p (a +:+ p +:+ b) = true.
Proof.
  induction a as [|c a IH].
  - rewrite app_nil_l. destruct (p +:+ b) eqn:E; simpl; rewrite <- ?E.
    + destruct p; [reflexivity|discriminate].
    + by rewrite startswith_app.
  - rewrite app_cons. simpl. rewrite IH. apply orb_true_r.
Qed.

Lemma startswith_inv (p s : string) :
  startswith p s = true → ∃ t, s = p +:+ t.
Proof.
  revert s. induction p as [|a p IH]; intros s H.
  - by exists s.
  - destruct s as [|b s]; [discriminate|]. simpl in H.
    apply andb_true_iff in H as [Hab Hps].
    apply bool_decide_eq_true in Hab as ->.
    destruct (IH _ Hps) as [t ->]. by exists t.
Qed.

(** [contains] is the substring relation. *)
Lemma contains_spec (p s : string) :
  contains p s = true ↔ ∃ a b, s = a +:+ p +:+ b.
Proof.
  split.
  - induction s as [|c s IH]; simpl; intros H.
    + rewrite orb_false_r in H. destruct (startswith_inv _ _ H) as [t ->].
      by exists "", t.
    + apply orb_true_iff in H as [H|H].
      * destruct (startswith_inv _ _ H) as [t ->]. by exists "", t.
      * destruct (IH H) as (a & b & ->). by exists (String c a), b.
  - intros (a & b & ->). apply contains_app.
Qed.

Lemma contains_suffix (p a : string) : contains p (a +:+ p) = true.
Proof. rewrite <- (app_nil_r p) at 2. apply contains_app. Qed.

Lemma rstrip_replicate (p : ascii → bool) (a : ascii) (n : nat) :
  p a = true → rstrip p (replicate n a) = "".
Proof.
  intros Ha. induction n as [|n IH]; [reflexivity|].
  simpl. by rewrite IH, Ha.
Qed.

(** Characters of the stripped set added at the end do not survive. *)
Lemma rstrip_app_replicate (p : ascii → bool) (a : ascii) (n : nat) (s : string) :
  p a = true → rstrip p (s +:+ replicate n a) = rstrip p s.
Proof.
  intros Ha. induction s as [|c s IH].
  - rewrite app_nil_l. by apply rstrip_replicate.
  - rewrite app_cons. simpl. by rewrite IH.
Qed.

Lemma rstrip_idemp (p : ascii → bool) (s : string) :
  rstrip p (rstrip p s) = rstrip p s.
Proof.
  induction s as [|c s IH]; [reflexivity|].
  simpl. destruct (rstrip p s) as [|d r] eqn:E.
  - destruct (p c) eqn:Hc; [reflexivity|]. simpl. by rewrite Hc.
  - simpl. simpl in IH. by rewrite IH.
Qed.

(** [rstrip('/')] gives the same result whatever the number of slashes
    added at the end. *)
Lemma rstrip_slashes (base_url : string) (n : nat) :
  rstrip is_slash (base_url +:+ replicate n "/") = rstrip is_slash base_url.
Proof. by apply rstrip_app_replicate. Qed.

End StrFacts.

(** ** More on strings *)

Module StripFacts.
Import Str.

Lemma length_app (s t : string) :
  String.length (s +:+ t) = (String.length s + String.length t)%nat.
Proof.
  induction s as [|a s IH]; [reflexivity|].
  rewrite StrFacts.app_cons. cbn. by rewrite IH.
Qed.

(** Appending on the right can be cancelled. *)
Lemma app_inj_r (s1 s2 t : string) : s1 +:+ t = s2 +:+ t → s1 = s2.
Proof.
  revert s2. induction s1 as [|a s1 IH]; intros [|b s2] H.
  - reflexivity.
  - apply (f_equal String.length) in H.
    rewrite StrFacts.app_nil_l, StrFacts.app_cons in H. cbn in H.
    rewrite length_app in H. lia.
  - apply (f_equal String.length) in H.
    rewrite StrFacts.app_nil_l, StrFacts.app_cons in H. cbn in H.
    rewrite length_app in H. lia.
  - rewrite !StrFacts.app_cons in H. injection H as -> H.
    by rewrite (IH _ H).
Qed.

Lemma all_app (p : ascii → bool) (s t : string) :
  all p (s +:+ t) = all p s && all p t.
Proof.
  induction s as [|a s IH]; [reflexivity|].
  rewrite StrFacts.app_cons. cbn. by rewrite IH, andb_assoc.
Qed.

Lemma all_replicate (p : ascii → bool) (a : ascii) (n : nat) :
  p a = true → all p (replicate n a) = true.
Proof. intros Ha. induction n as [|n IH]; [reflexivity|]. cbn. by rewrite Ha. Qed.

Lemma last_app (s t : string) : t ≠ "" → last (s +:+ t) = last t.
Proof.
  intros Ht. induction s as [|a s IH]; [reflexivity|].
  rewrite StrFacts.app_cons. cbn. rewrite IH.
  destruct (s +:+ t) eqn:E; [|reflexivity].
  destruct s; [by rewrite StrFacts.app_nil_l in E|discriminate E].
Qed.

(** [rstrip] cuts off a run of stripped characters, and all of it. *)
Lemma rstrip_split (p : ascii → bool) (s : string) :
  ∃ r, s = rstrip p s +:+ r ∧ all p r = true.
Proof.
  induction s as [|a s (r & Hs & Hr)]; [by exists ""|].
  cbn. destruct (rstrip p s) as [|c k] eqn:E.
  - rewrite StrFacts.app_nil_l in Hs. subst r.
    destruct (p a) eqn:Ha.
    + exists (String a s). split; [reflexivity|]. cbn. by rewrite Ha.
    + exists s. by split.
  - exists r. split; [|exact Hr]. rewrite StrFacts.app_cons. by rewrite <- Hs.
Qed.

Lemma rstrip_last (p : ascii → bool) (s : string) (a : ascii) :
  last (rstrip p s) = Some a → p a = false.
Proof.
  induction s as [|c s IH]; [discriminate|].
  cbn. destruct (rstrip p s) as [|d k] eqn:E.
  - destruct (p c) eqn:Hc; [discriminate|]. cbn. by intros [= <-].
  - cbn. intros H. apply IH. exact H.
Qed.

Lemma rstrip_all (p : ascii → bool) (s : string) :
  all p s = true → rstrip p s = "".
Proof.
  induction s as [|a s IH]; [reflexivity|].
  cbn. intros [Ha Hs]%andb_true_iff. by rewrite IH, Ha.
Qed.

(** Nothing to strip: the string is returned as it is. *)
Lemma rstrip_id (p : ascii → bool) (s : string) :
  (∀ a, last s = Some a → p a = false) → rstrip p s = s.
Proof.
  induction s as [|a s IH]; [reflexivity|].
  intros H. cbn. destruct s as [|c k].
  - cbn. by rewrite (H a eq_refl).
  - rewrite IH; [reflexivity|]. intros d Hd. apply H. exact Hd.
Qed.

Lemma lstrip_split (p : ascii → bool) (s : string) :
  ∃ l, s = l +:+ lstrip p s ∧ all p l = true.
Proof.
  induction s as [|a s (l & Hs & Hl)]; [by exists ""|].
  cbn. destruct (p a) eqn:Ha.
  - exists (String a l). rewrite StrFacts.app_cons, <- Hs.
    split; [reflexivity|]. cbn. by rewrite Ha.
  - by exists "".
Qed.

Lemma lstrip_head (p : ascii → bool) (s : string) (a : ascii) :
  head (lstrip p s) = Some a → p a = false.
Proof.
  induction s as [|c s IH]; [discriminate|].
  cbn. destruct (p c) eqn:Hc; [exact IH|].
  cbn. by intros [= <-].
Qed.

(** A string is blank exactly when stripping leaves nothing. *)
Lemma strip_empty_iff (s : string) : strip s = "" ↔ all isspace s = true.
Proof.
  unfold strip. split.
  - intros H. destruct (rstrip_split isspace s) as (r & Hs & Hr).
    destruct (lstrip_split isspace (rstrip isspace s)) as (l & Hk & Hl).
    rewrite H, StrFacts.app_nil_r in Hk. rewrite Hs, all_app, Hr, Hk, Hl.
    reflexivity.
  - intros H. by rewrite rstrip_all.
Qed.

(** What [strip] returns, when it returns something: the middle of the
    string between two blank margins, with no white space at either end. *)
Lemma strip_split (s : string) :
  strip s ≠ "" →
  ∃ l r, s = l +:+ strip s +:+ r
         ∧ all isspace l = true ∧ all isspace r = true
         ∧ (∀ a, head (strip s) = Some a → isspace a = false)
         ∧ (∀ a, last (strip s) = Some a → isspace a = false).
Proof.
  unfold strip. intros Hne.
  destruct (rstrip_split isspace s) as (r & Hs & Hr).
  destruct (lstrip_split isspace (rstrip isspace s)) as (l & Hk & Hl).
  exists l, r. split; [by rewrite <- StrFacts.app_assoc, <- Hk|].
  split; [exact Hl|]. split; [exact Hr|]. split.
  - intros a. apply lstrip_head.
  - intros a Ha. apply (rstrip_last isspace s).
    by rewrite Hk, last_app.
Qed.

(** For the one-character suffix ["/"], [endswith] looks at the last
    character. *)
Lemma endswith_slash (s : string) :
  endswith "/" s = false ↔ ∀ a, last s = Some a → is_slash a = false.
Proof.
  induction s as [|c s IH]; [by split|].
  cbn [endswith]. rewrite orb_false_iff, IH. destruct s as [|d k].
  - cbn. split.
    + intros [Hc _] a [= <-]. unfold is_slash.
      apply bool_decide_eq_false. apply bool_decide_eq_false in Hc. congruence.
    + intros H. split; [|by intros a].
      specialize (H c eq_refl). apply bool_decide_eq_false.
      apply bool_decide_eq_false in H. congruence.
  - cbn [last]. split.
    + by intros [_ H].
    + intros H. split; [|exact H]. by apply bool_decide_eq_false.
Qed.

Lemma replicate_slash_split (s : string) :
  ∃ n, s = rstrip is_slash s +:+ replicate n "/".
Proof.
  induction s as [|a s (n & Hs)]; [by exists 0%nat|].
  cbn. destruct (rstrip is_slash s) as [|c k] eqn:E.
  - rewrite StrFacts.app_nil_l in Hs. destruct (is_slash a) eqn:Ha.
    + apply bool_decide_eq_true in Ha as ->. exists (S n). by rewrite Hs.
    + exists n. by rewrite StrFacts.app_cons, StrFacts.app_nil_l, <- Hs.
  - exists n. rewrite StrFacts.app_cons. by rewrite <- Hs.
Qed.

End StripFacts.

(** ** Shapes survive the trip through JSON *)

Lemma OptionOut_roundtrip (o : OptionOut.t) : of_json (to_json o) = Some o.
Proof. by destruct o. Qed.

Lemma VoteOut_roundtrip (v : VoteOut.t) : of_json (to_json v) = Some v.
Proof. by destruct v. Qed.

Lemma PollResultItem_roundtrip (x : PollResultItem.t) :
  of_json (to_json x) = Some x.
Proof. by destruct x. Qed.

Lemma of_json_list_fmap `{Shape A} (l : list A) :
  (∀ x : A, of_json (to_json x) = Some x) →
  of_json_list (JList (to_json <$> l)) = Some l.
Proof. intros Hrt. unfold of_json_list. simpl. by apply mapM_fmap_Some. Qed.

Lemma PollOut_roundtrip (p : PollOut.t) : of_json (to_json p) = Some p.
Proof.
  destruct p as [i q c o os].
  transitivity
    (os' ← of_json_list (JList (to_json <$> os));
     Some {| PollOut.id := i; PollOut.question := q; PollOut.created_at := c;
             PollOut.owner_id := o; PollOut.options := os' |});
    [reflexivity|].
  by rewrite (of_json_list_fmap os OptionOut_roundtrip).
Qed.

Lemma PollResults_roundtrip (r : PollResults.t) : of_json (to_json r) = Some r.
Proof.
  destruct r as [p q rs].
  transitivity
    (rs' ← of_json_list (JList (to_json <$> rs));
     Some {| PollResults.poll_id := p; PollResults.question := q;
             PollResults.results := rs' |});
    [reflexivity|].
  by rewrite (of_json_list_fmap rs PollResultItem_roundtrip).
Qed.

(** Reading a typed field succeeds only on a value of that type. *)
Lemma item_int (key : string) (v : JSON) (n : Z) :
  item key v ≫= as_int = Some n → item key v = Some (JInt n).
Proof. destruct (item key v) as [[]|]; simpl; congruence. Qed.

Lemma item_str (key : string) (v : JSON) (s : string) :
  item key v ≫= as_str = Some s → item key v = Some (JStr s).
Proof. destruct (item key v) as [[]|]; simpl; congruence. Qed.

Lemma item_list `{Shape A} (key : string) (v : JSON) (l : list A) :
  item key v ≫= of_json_list = Some l →
  ∃ items, item key v = Some (JList items)
           ∧ Forall2 (λ j x, of_json j = Some x) items l.
Proof.
  destruct (item key v) as [[]|]; simpl; try discriminate.
  unfold of_json_list. simpl. intros Hm. eexists. split; [reflexivity|].
  by apply mapM_Some_1.
Qed.

(** ** One call, one request, one verdict *)

Section Run.
Variable requests : Transport.

Lemma fetch_polls_run skip limit base_url timeout session wire :
  let op := FetchPolls skip limit in
  let req := request_of op base_url timeout in
  fetch_polls requests skip limit base_url timeout session wire
  = (verdict op (session_or_requests requests session req), wire ++ [req]).
Proof.
  cbn zeta. unfold fetch_polls, http_get, send, verdict.
  unfold mbind, IO_bind. cbn [request_of path].
  destruct (session_or_requests requests session _) as [e|resp]; [done|].
  cbn. case_bool_decide.
  - unfold call_json. by destruct (json resp).
  - unfold try_except_HTTPError, call_raise_for_status, body_text.
    by destruct (raise_for_status resp) as [[]|].
Qed.

Lemma dict_or_None_empty : dict_or_None ∅ = None.
Proof. unfold dict_or_None. by rewrite bool_decide_eq_true_2. Qed.

Lemma dict_or_None_insert (k v : string) (h : gmap string string) :
  dict_or_None (<[k := v]> h) = Some (<[k := v]> h).
Proof.
  unfold dict_or_None. rewrite bool_decide_eq_false_2; [done|].
  apply insert_non_empty.
Qed.

Lemma cast_vote_headers (bearer_token : option string) :
  dict_or_None
    match bearer_token with
    | Some token =>
        if Str.truthy token
        then <["Authorization" := "Bearer " +:+ token]> ∅
        else ∅
    | None => ∅
    end
  = match bearer_token with
    | Some token =>
        if Str.truthy token
        then Some {[ "Authorization" := "Bearer " +:+ token ]}
        else None
    | None => None
    end.
Proof.
  destruct bearer_token as [token|]; [destruct (Str.truthy token)|];
    by rewrite ?dict_or_None_insert, ?dict_or_None_empty.
Qed.

Lemma cast_vote_run poll_id option_id base_url timeout session bearer_token wire :
  let op := CastVote poll_id option_id bearer_token in
  let req := request_of op base_url timeout in
  cast_vote requests poll_id option_id base_url timeout session bearer_token wire
  = (verdict op (session_or_requests requests session req), wire ++ [req]).
Proof.
  cbn zeta. unfold cast_vote, http_post, send, verdict.
  unfold mbind, IO_bind. cbn [request_of path].
  rewrite cast_vote_headers.
  destruct (session_or_requests requests session _) as [e|resp]; [done|].
  cbn. case_bool_decide.
  - unfold call_json. by destruct (json resp).
  - unfold try_except_HTTPError, call_raise_for_status, body_text.
    destruct (raise_for_status resp) as [[]|]; cbn; [|done..].
    by rewrite !StrFacts.app_assoc.
Qed.

Lemma get_poll_results_run poll_id base_url timeout session wire :
  let op := GetPollResults poll_id in
  let req := request_of op base_url timeout in
  get_poll_results requests poll_id base_url timeout session wire
  = (verdict op (session_or_requests requests session req), wire ++ [req]).
Proof.
  cbn zeta. unfold get_poll_results, http_get, send, verdict.
  unfold mbind, IO_bind. cbn [request_of path].
  destruct (session_or_requests requests session _) as [e|resp]; [done|].
  cbn. case_bool_decide.
  - unfold call_json. by destruct (json resp).
  - unfold try_except_HTTPError, call_raise_for_status, body_text.
    destruct (raise_for_status resp) as [[]|]; cbn; [|done..].
    by rewrite !StrFacts.app_assoc.
Qed.

(** Every operation sends the one request [request_of] describes and ends
    as [verdict] says. *)
Lemma run_spec op base_url timeout session wire :
  let req := request_of op base_url timeout in
  run requests op base_url timeout session wire
  = (verdict op (session_or_requests requests session req), wire ++ [req]).
Proof.
  destruct op; cbn [run].
  - apply fetch_polls_run.
  - apply cast_vote_run.
  - apply get_poll_results_run.
Qed.

End Run.

(** ** The claims *)

Lemma response_raises_only_HTTPError status reason url body decoded :
  raises_only_HTTPError (Requests.response status reason url body decoded).
Proof.
  intros e. unfold Requests.response. cbn.
  destruct (Requests.http_error_msg status reason url) as [m|]; cbn;
    [|discriminate].
  intros [= <-]. by exists m.
Qed.

Lemma class_own_error op msg c : class_of (own_error op msg c) = own_class op.
Proof. by destruct op. Qed.

Lemma message_own_error op msg c : message (own_error op msg c) = msg.
Proof. by destruct op. Qed.

Lemma cause_own_error op msg c : cause (own_error op msg c) = c.
Proof. by destruct op. Qed.

Lemma or_else_truthy (a b : string) : a ≠ "" → Str.or_else a b = a.
Proof. by destruct a. Qed.

(** The status code and the chosen text both occur in a translated message. *)
Lemma failed_message_status (line status detail : string) :
  Str.contains status (line +:+ " failed (" +:+ status +:+ "): " +:+ detail)
  = true.
Proof. rewrite <- StrFacts.app_assoc. apply StrFacts.contains_app. Qed.

Lemma failed_message_text (line status detail : string) :
  Str.contains detail (line +:+ " failed (" +:+ status +:+ "): " +:+ detail)
  = true.
Proof. rewrite <- !StrFacts.app_assoc. apply StrFacts.contains_suffix. Qed.

(** C1. For every [skip] and [limit], [fetch_polls] puts one GET request on
    the wire, with the query parameters [skip] and [limit].  It is addressed
    to the base URL followed by [/polls]: literally so when the base URL
    does not end in a slash, and in general with the slashes at the end of
    the base URL left out.  Whenever the answer has status 200 and its body
    decodes to a JSON array, that array is what the call returns, so that
    an array of polls reads back as the same polls, field by field. *)
Theorem fetch_polls_ok requests skip limit base_url timeout session wire :
  let req := {| req_method := GET;
                req_url := Str.rstrip Str.is_slash base_url +:+ "/polls";
                req_params := Some [("skip", skip); ("limit", limit)];
                req_json := None; req_headers := None;
                req_timeout := timeout |} in
  let result := fetch_polls requests skip limit base_url timeout session wire in
  snd result = wire ++ [req]
  ∧ (Str.endswith "/" base_url = false →
     req_url req = base_url +:+ "/polls")
  ∧ (∃ base n,
       base_url = base +:+ Str.replicate n "/"
       ∧ Str.endswith "/" base = false
       ∧ req_url req = base +:+ "/polls")
  ∧ ∀ resp items,
      session_or_requests requests session req = inr resp →
      status_code resp = 200 →
      json resp = inr (JList items) →
      ∃ v, fst result = Returned v
           ∧ v = JList items
           ∧ ∀ polls : list PollOut.t,
               items = to_json <$> polls → of_json_list v = Some polls.
Proof.
  cbn zeta. rewrite fetch_polls_run. split; [reflexivity|]. split.
  { intros Hend. cbn [req_url].
    rewrite StripFacts.rstrip_id; [reflexivity|].
    by apply StripFacts.endswith_slash. }
  split.
  { destruct (StripFacts.replicate_slash_split base_url) as [n Hn].
    exists (Str.rstrip Str.is_slash base_url), n.
    split; [exact Hn|]. split; [|reflexivity].
    apply StripFacts.endswith_slash. apply StripFacts.rstrip_last. }
  intros resp items Hresp Hok Hjson. cbn [fst request_of path].
  rewrite Hresp. unfold verdict.
  rewrite bool_decide_eq_true_2, Hjson by done.
  exists (JList items). split; [reflexivity|]. split; [reflexivity|].
  intros polls ->. apply of_json_list_fmap, PollOut_roundtrip.
Qed.

(** The documented example: [fetch_polls(skip=0, limit=2)] sends one GET to
    [http://localhost:8000/polls] with [skip=0] and [limit=2], and against
    the stub returns one poll, whose [id] is 1. *)
Lemma fetch_polls_ok_witness :
  ∃ req v,
    snd (fetch_polls (Requests.answering Sample.polls_ok) 0 2
           default_base_url default_timeout None []) = [req]
    ∧ req_method req = GET
    ∧ req_url req = "http://localhost:8000/polls"
    ∧ req_params req = Some [("skip", 0); ("limit", 2)]
    ∧ fst (fetch_polls (Requests.answering Sample.polls_ok) 0 2
             default_base_url default_timeout None []) = Returned v
    ∧ of_json_list v = Some [Sample.poll]
    ∧ PollOut.id Sample.poll = 1.
Proof.
  destruct (fetch_polls_ok (Requests.answering Sample.polls_ok) 0 2
              default_base_url default_timeout None [])
    as (Hwire & Hurl & _ & H).
  destruct (H Sample.polls_ok [to_json Sample.poll]) as (v & Hret & _ & Hread);
    [reflexivity..|].
  eexists _, v. split; [exact Hwire|]. split; [reflexivity|].
  split; [apply Hurl; reflexivity|]. split; [reflexivity|].
  split; [exact Hret|].
  split; [|reflexivity]. by apply (Hread [Sample.poll]).
Defined.

(** C2, as the code has it.  For every answer whose status is not 200 and
    whose [raise_for_status()] keeps to its contract, an operation raises
    an error of its own class, never of another one, and the message
    contains the status code.  When [raise_for_status()] raises, that
    exception is the cause and the message also contains the body stripped
    of surrounding white space, or the text of the exception when nothing
    is left of the body; when it returns, the message is
    ["Unexpected status code <status>"] and there is no cause. *)
Theorem non_200_raises_own_error requests op base_url timeout session wire resp :
  session_or_requests requests session (request_of op base_url timeout)
    = inr resp →
  status_code resp ≠ 200 →
  raises_only_HTTPError resp →
  ∃ e, fst (run requests op base_url timeout session wire) = Raised e
       ∧ class_of e = own_class op
       ∧ Str.contains (pretty (status_code resp)) (message e) = true
       ∧ match raise_for_status resp with
         | Some h =>
             cause e = Some h
             ∧ (Str.strip (body_text resp) ≠ "" →
                Str.contains (Str.strip (body_text resp)) (message e) = true)
             ∧ (Str.strip (body_text resp) = "" →
                Str.contains (str h) (message e) = true)
         | None =>
             cause e = None
             ∧ message e
               = "Unexpected status code " +:+ pretty (status_code resp)
         end.
Proof.
  intros Hresp Hne Honly. rewrite run_spec. cbn [fst]. rewrite Hresp.
  unfold verdict. rewrite bool_decide_eq_false_2 by done.
  destruct (raise_for_status resp) as [h|] eqn:Hr.
  - destruct (Honly h Hr) as [m ->]. eexists. split; [reflexivity|].
    rewrite class_own_error, message_own_error, cause_own_error.
    split; [reflexivity|]. split; [apply failed_message_status|].
    split; [reflexivity|]. split.
    + intros Hb. rewrite or_else_truthy by done. apply failed_message_text.
    + intros ->. apply failed_message_text.
  - eexists. split; [reflexivity|].
    rewrite class_own_error, message_own_error, cause_own_error.
    split; [reflexivity|]. split; [apply StrFacts.contains_suffix|done].
Qed.

Lemma non_200_raises_own_error_witness :
  status_code Sample.not_found ≠ 200
  ∧ raises_only_HTTPError Sample.not_found
  ∧ ∃ e, fst (fetch_polls (Requests.answering Sample.not_found) 0 2
                default_base_url default_timeout None []) = Raised e
         ∧ class_of e = ClsPollsFetchError
         ∧ Str.contains "404" (message e) = true
         ∧ Str.contains "no such poll" (message e) = true.
Proof.
  split; [discriminate|]. split; [apply response_raises_only_HTTPError|].
  destruct (non_200_raises_own_error (Requests.answering Sample.not_found)
              (FetchPolls 0 2) default_base_url default_timeout None []
              Sample.not_found) as (e & He & Hclass & Hstatus & Hdetail);
    [reflexivity|discriminate|apply response_raises_only_HTTPError|].
  exists e. split; [exact He|]. split; [exact Hclass|].
  split; [exact Hstatus|].
  change (raise_for_status Sample.not_found)
    with (Some (HTTPError ("404 Client Error: Not Found for url: "
                           +:+ Sample.polls_url))) in Hdetail.
  destruct Hdetail as (_ & Hbody & _).
  change (Str.strip (body_text Sample.not_found)) with "no such poll" in Hbody.
  apply Hbody. discriminate.
Defined.

(** C2, as stated, fails.  A 201 answer with body [created] makes
    [fetch_polls] raise [PollsFetchError] with the message
    [Unexpected status code 201]: the message has the status code, but
    neither the body nor the text of any exception, and the error has no
    cause.  A 404 answer whose body is padded with blanks yields a message
    with the stripped body only: neither the body as received nor the text
    of the [HTTPError] occurs in it. *)
Lemma unexpected_status_carries_no_detail :
  (status_code Sample.created ≠ 200
   ∧ ∃ e, fst (fetch_polls (Requests.answering Sample.created) 0 2
                 default_base_url default_timeout None []) = Raised e
          ∧ e = PollsFetchError "Unexpected status code 201" None
          ∧ ¬ carries_status_and_detail Sample.created e)
  ∧ (status_code Sample.not_found ≠ 200
     ∧ ∃ e, fst (fetch_polls (Requests.answering Sample.not_found) 0 2
                   default_base_url default_timeout None []) = Raised e
            ∧ message e = "GET /polls failed (404): no such poll"
            ∧ ¬ carries_status_and_detail Sample.not_found e).
Proof.
  split; (split; [discriminate|]); eexists; (split; [reflexivity|]);
    (split; [reflexivity|]).
  - intros [_ [Hbody|(h & Hcause & _)]]; [|discriminate Hcause].
    vm_compute in Hbody. discriminate Hbody.
  - intros [_ [Hbody|(h & Hcause & Htext)]].
    + vm_compute in Hbody. discriminate Hbody.
    + injection Hcause as <-. vm_compute in Htext. discriminate Htext.
Qed.

Lemma header_singleton (name value : string) (r : Request) :
  req_headers r = Some {[ name := value ]} → header name r = Some value.
Proof. unfold header. intros ->. cbn. apply lookup_singleton_eq. Qed.

Lemma header_absent (name : string) (r : Request) :
  req_headers r = None → header name r = None.
Proof. unfold header. by intros ->. Qed.

(** C3, as the code has it.  For every [poll_id], [option_id] and optional
    bearer token, [cast_vote] puts exactly one request on the wire: a POST
    to the base URL (trailing slashes removed) followed by
    [/polls/<poll_id>/vote], whose JSON body is the object with the single
    entry [option_id].
    It carries [Authorization: Bearer <token>] when a non-empty token is
    given, and no [Authorization] header when the token is [None] or the
    empty string. *)
Theorem cast_vote_request requests poll_id option_id base_url timeout session
    bearer_token wire :
  ∃ req,
    snd (cast_vote requests poll_id option_id base_url timeout session
           bearer_token wire) = wire ++ [req]
    ∧ req_method req = POST
    ∧ req_url req = Str.rstrip Str.is_slash base_url
                    +:+ "/polls/" +:+ pretty poll_id +:+ "/vote"
    ∧ req_json req = Some (JDict [("option_id", JInt option_id)])
    ∧ (∀ token, bearer_token = Some token → token ≠ "" →
         header "Authorization" req = Some ("Bearer " +:+ token))
    ∧ (bearer_token = None ∨ bearer_token = Some "" →
         header "Authorization" req = None).
Proof.
  rewrite cast_vote_run. eexists. split; [reflexivity|].
  cbn [request_of path req_method req_url req_json].
  do 3 (split; [reflexivity|]). split.
  - intros token -> Hne. apply header_singleton. cbn.
    by destruct token.
  - intros [-> | ->]; by apply header_absent.
Qed.

Lemma cast_vote_request_witness :
  ∃ req,
    snd (cast_vote (Requests.answering Sample.vote_ok) 7 12 default_base_url
           default_timeout None (Some "s3cr3t") []) = [req]
    ∧ req_url req = Sample.vote_url
    ∧ header "Authorization" req = Some "Bearer s3cr3t".
Proof.
  destruct (cast_vote_request (Requests.answering Sample.vote_ok) 7 12
              default_base_url default_timeout None (Some "s3cr3t") [])
    as (req & Hwire & _ & Hurl & _ & Hauth & _).
  exists req. split; [exact Hwire|]. split; [exact Hurl|].
  apply (Hauth "s3cr3t"); [reflexivity|discriminate].
Defined.

(** C3, as stated, fails at the empty token: a token is supplied, yet the
    request has no [Authorization] header, let alone ["Bearer "]. *)
Lemma empty_token_sends_no_header :
  ∃ req,
    snd (cast_vote (Requests.answering Sample.vote_ok) 7 12 default_base_url
           default_timeout None (Some "") []) = [req]
    ∧ header "Authorization" req = None
    ∧ header "Authorization" req ≠ Some ("Bearer " +:+ "").
Proof.
  eexists. split; [reflexivity|]. split; [reflexivity|]. discriminate.
Qed.

(** What [of_json] found is what subscripting finds. *)
Lemma VoteOut_fields (body : JSON) (v : VoteOut.t) :
  of_json body = Some v →
  item "id" body = Some (JInt (VoteOut.id v))
  ∧ item "user_id" body = Some (JInt (VoteOut.user_id v))
  ∧ item "option_id" body = Some (JInt (VoteOut.option_id v))
  ∧ item "created_at" body = Some (JStr (VoteOut.created_at v)).
Proof.
  unfold of_json, VoteOut_shape. intros H.
  apply bind_Some in H as (i & Hi & H). apply bind_Some in H as (u & Hu & H).
  apply bind_Some in H as (o & Ho & H). apply bind_Some in H as (c & Hc & H).
  injection H as <-. cbn.
  auto using item_int, item_str.
Qed.

Lemma PollResults_fields (body : JSON) (p : PollResults.t) :
  of_json body = Some p →
  item "poll_id" body = Some (JInt (PollResults.poll_id p))
  ∧ item "question" body = Some (JStr (PollResults.question p))
  ∧ ∃ items, item "results" body = Some (JList items)
             ∧ Forall2 (λ j x, of_json j = Some x) items (PollResults.results p).
Proof.
  unfold of_json at 1, PollResults_shape. intros H.
  apply bind_Some in H as (i & Hi & H). apply bind_Some in H as (q & Hq & H).
  apply bind_Some in H as (rs & Hrs & H).
  injection H as <-.
  cbn [PollResults.poll_id PollResults.question PollResults.results].
  split; [by apply item_int|]. split; [by apply item_str|].
  by apply item_list.
Qed.

(** C4. Whenever the answer to [cast_vote] has status 200 and a body that
    is a JSON object with the fields [id], [user_id], [option_id] and
    [created_at], the returned value has exactly those field values: it
    reads back as the same vote, and each of the four keys yields the value
    the body holds. *)
Theorem cast_vote_returns_vote requests poll_id option_id base_url timeout
    session bearer_token wire resp body (v : VoteOut.t) :
  session_or_requests requests session
    (request_of (CastVote poll_id option_id bearer_token) base_url timeout)
    = inr resp →
  status_code resp = 200 →
  json resp = inr body →
  of_json body = Some v →
  ∃ r, fst (cast_vote requests poll_id option_id base_url timeout session
              bearer_token wire) = Returned r
       ∧ of_json r = Some v
       ∧ item "id" r = Some (JInt (VoteOut.id v))
       ∧ item "user_id" r = Some (JInt (VoteOut.user_id v))
       ∧ item "option_id" r = Some (JInt (VoteOut.option_id v))
       ∧ item "created_at" r = Some (JStr (VoteOut.created_at v)).
Proof.
  intros Hresp Hok Hjson Hv. rewrite cast_vote_run. cbn [fst].
  rewrite Hresp. unfold verdict. rewrite bool_decide_eq_true_2, Hjson by done.
  exists body. split; [reflexivity|]. split; [exact Hv|].
  by apply VoteOut_fields.
Qed.

Lemma cast_vote_returns_vote_witness :
  ∃ r, fst (cast_vote (Requests.answering Sample.vote_ok) 7 12
              default_base_url default_timeout None (Some "s3cr3t") [])
       = Returned r
       ∧ of_json r = Some Sample.vote
       ∧ item "option_id" r = Some (JInt 12).
Proof.
  destruct (cast_vote_returns_vote (Requests.answering Sample.vote_ok) 7 12
              default_base_url default_timeout None (Some "s3cr3t") []
              Sample.vote_ok (to_json Sample.vote) Sample.vote)
    as (r & Hret & Hread & _ & _ & Hopt & _); [reflexivity..|].
  exists r. split; [exact Hret|]. split; [exact Hread|exact Hopt].
Defined.

(** C5. Whenever the answer to [get_poll_results] has status 200 and a body
    that is a poll-results object, the returned value has the same
    [poll_id] and [question], and its [results] hold the same entries in
    the same order: entry by entry they read back as the result items of
    the body. *)
Theorem get_poll_results_returns_results requests poll_id base_url timeout
    session wire resp body (p : PollResults.t) :
  session_or_requests requests session
    (request_of (GetPollResults poll_id) base_url timeout) = inr resp →
  status_code resp = 200 →
  json resp = inr body →
  of_json body = Some p →
  ∃ r, fst (get_poll_results requests poll_id base_url timeout session wire)
       = Returned r
       ∧ of_json r = Some p
       ∧ item "poll_id" r = Some (JInt (PollResults.poll_id p))
       ∧ item "question" r = Some (JStr (PollResults.question p))
       ∧ ∃ items, item "results" r = Some (JList items)
                  ∧ Forall2 (λ j x, of_json j = Some x)
                      items (PollResults.results p).
Proof.
  intros Hresp Hok Hjson Hp. rewrite get_poll_results_run. cbn [fst].
  rewrite Hresp. unfold verdict. rewrite bool_decide_eq_true_2, Hjson by done.
  exists body. split; [reflexivity|]. split; [exact Hp|].
  by apply PollResults_fields.
Qed.

Lemma get_poll_results_returns_results_witness :
  ∃ r, fst (get_poll_results (Requests.answering Sample.results_ok) 7
              default_base_url default_timeout None []) = Returned r
       ∧ of_json r = Some Sample.poll_results
       ∧ ∃ items, item "results" r = Some (JList items)
                  ∧ Forall2 (λ j x, of_json j = Some x)
                      items (PollResults.results Sample.poll_results).
Proof.
  destruct (get_poll_results_returns_results
              (Requests.answering Sample.results_ok) 7 default_base_url
              default_timeout None [] Sample.results_ok
              (to_json Sample.poll_results) Sample.poll_results)
    as (r & Hret & Hread & _ & _ & Hitems); [reflexivity..|].
  exists r. split; [exact Hret|]. split; [exact Hread|exact Hitems].
Defined.

(** C6, as the code has it.  For every answer whose status is not 200: when
    [raise_for_status()] raises [HTTPError], the operation raises its own
    error with the message ["<request line> failed (<status>): <text>"],
    where the text is the body stripped of surrounding white space if that
    is not empty, and the message of the [HTTPError] otherwise; when
    [raise_for_status()] returns, the message is
    ["Unexpected status code <status>"], whatever the body. *)
Theorem error_text_selection requests op base_url timeout session wire resp :
  session_or_requests requests session (request_of op base_url timeout)
    = inr resp →
  status_code resp ≠ 200 →
  (∀ msg, raise_for_status resp = Some (HTTPError msg) →
     fst (run requests op base_url timeout session wire)
     = Raised (own_error op
                 (endpoint op +:+ " failed (" +:+ pretty (status_code resp)
                  +:+ "): "
                  +:+ (if Str.truthy (Str.strip (body_text resp))
                       then Str.strip (body_text resp)
                       else msg))
                 (Some (HTTPError msg))))
  ∧ (raise_for_status resp = None →
     fst (run requests op base_url timeout session wire)
     = Raised (own_error op
                 ("Unexpected status code " +:+ pretty (status_code resp))
                 None)).
Proof.
  intros Hresp Hne. rewrite run_spec. cbn [fst]. rewrite Hresp.
  unfold verdict. rewrite bool_decide_eq_false_2 by done.
  split; [intros msg Hr|intros Hr]; by rewrite Hr.
Qed.

Lemma error_text_selection_witness :
  fst (fetch_polls (Requests.answering Sample.not_found) 0 2
         default_base_url default_timeout None [])
  = Raised (PollsFetchError "GET /polls failed (404): no such poll"
              (Some (HTTPError ("404 Client Error: Not Found for url: "
                                +:+ Sample.polls_url))))
  ∧ fst (get_poll_results (Requests.answering Sample.created) 7
           default_base_url default_timeout None [])
    = Raised (PollResultsFetchError "Unexpected status code 201" None).
Proof.
  split.
  - apply (error_text_selection (Requests.answering Sample.not_found)
             (FetchPolls 0 2) default_base_url default_timeout None []
             Sample.not_found); [reflexivity|discriminate|reflexivity].
  - apply (error_text_selection (Requests.answering Sample.created)
             (GetPollResults 7) default_base_url default_timeout None []
             Sample.created); [reflexivity|discriminate|reflexivity].
Defined.

(** C6, as stated, fails twice.  On a 404 whose body is three blanks the
    body is not empty, yet the text of the error is the message of the
    [HTTPError]; on a 201 the body is [created], yet the error reads
    ["Unexpected status code 201"]. *)
Lemma error_text_not_always_from_body :
  (status_code Sample.not_found_blank ≠ 200
   ∧ body_text Sample.not_found_blank = "   "
   ∧ ∃ e, fst (fetch_polls (Requests.answering Sample.not_found_blank) 0 2
                 default_base_url default_timeout None []) = Raised e
          ∧ message e = "GET /polls failed (404): "
                        +:+ "404 Client Error: Not Found for url: "
                        +:+ Sample.polls_url
          ∧ ¬ text_from_body_else_exception Sample.not_found_blank e)
  ∧ (status_code Sample.created ≠ 200
     ∧ body_text Sample.created = "created"
     ∧ ∃ e, fst (fetch_polls (Requests.answering Sample.created) 0 2
                   default_base_url default_timeout None []) = Raised e
            ∧ message e = "Unexpected status code 201"
            ∧ ¬ text_from_body_else_exception Sample.created e).
Proof.
  split; (split; [discriminate|]); (split; [reflexivity|]);
    eexists; (split; [reflexivity|]); (split; [reflexivity|]);
    intros H; vm_compute in H; discriminate H.
Qed.

(** C7. Whenever the transport fails before any response arrives, each of
    the three operations ends with the very exception the transport raised:
    it belongs to none of the three classes of the module, and its class and
    message are those of the transport. *)
Theorem transport_failure_propagates requests op base_url timeout session wire e :
  session_or_requests requests session (request_of op base_url timeout)
    = inl e →
  ∃ x, run requests op base_url timeout session wire
       = (Raised x, wire ++ [request_of op base_url timeout])
       ∧ x = Uncaught e
       ∧ class_of x ≠ ClsPollsFetchError
       ∧ class_of x ≠ ClsVotingError
       ∧ class_of x ≠ ClsPollResultsFetchError
       ∧ message x = str e.
Proof.
  intros He. rewrite run_spec. cbn zeta. rewrite He.
  exists (Uncaught e). by repeat split.
Qed.

Lemma transport_failure_propagates_witness :
  fst (fetch_polls (Requests.failing Sample.timed_out) 0 2
         default_base_url default_timeout None [])
    = Raised (Uncaught Sample.timed_out)
  ∧ fst (cast_vote (Requests.failing Sample.timed_out) 7 12
           default_base_url default_timeout None None [])
    = Raised (Uncaught Sample.timed_out)
  ∧ fst (get_poll_results (Requests.failing Sample.timed_out) 7
           default_base_url default_timeout None [])
    = Raised (Uncaught Sample.timed_out).
Proof.
  pose proof (λ op, transport_failure_propagates
                (Requests.failing Sample.timed_out) op default_base_url
                default_timeout None [] Sample.timed_out eq_refl) as H.
  split; [|split].
  - destruct (H (FetchPolls 0 2)) as (x & Hrun & -> & _).
    exact (f_equal fst Hrun).
  - destruct (H (CastVote 7 12 None)) as (x & Hrun & -> & _).
    exact (f_equal fst Hrun).
  - destruct (H (GetPollResults 7)) as (x & Hrun & -> & _).
    exact (f_equal fst Hrun).
Defined.

(** C8. Whenever the answer has status 200 and a body that decodes, each of
    the three operations returns the decoded value as it is, whatever its
    shape, and raises nothing. *)
Theorem ok_returns_json_verbatim requests op base_url timeout session wire
    resp v :
  session_or_requests requests session (request_of op base_url timeout)
    = inr resp →
  status_code resp = 200 →
  json resp = inr v →
  run requests op base_url timeout session wire
  = (Returned v, wire ++ [request_of op base_url timeout]).
Proof.
  intros Hresp Hok Hjson. rewrite run_spec. cbn zeta. rewrite Hresp.
  unfold verdict. by rewrite bool_decide_eq_true_2, Hjson.
Qed.

(** An object where an array is declared comes back as that object. *)
Lemma ok_returns_json_verbatim_witness :
  fst (fetch_polls (Requests.answering Sample.detail_ok) 0 2
         default_base_url default_timeout None [])
  = Returned (JDict [("detail", JStr "maintenance")]).
Proof.
  exact (f_equal fst
           (ok_returns_json_verbatim (Requests.answering Sample.detail_ok)
              (FetchPolls 0 2) default_base_url default_timeout None []
              Sample.detail_ok Sample.detail_json eq_refl eq_refl eq_refl)).
Defined.

(** C9. For every base URL and every number of slashes added at its end,
    each of the three operations sends the same request, to the same URL,
    and ends in the same way as for the base URL itself. *)
Theorem trailing_slashes_ignored requests op base_url n timeout session wire :
  let padded := base_url +:+ Str.replicate n "/" in
  run requests op padded timeout session wire
  = run requests op base_url timeout session wire
  ∧ ∃ req, snd (run requests op padded timeout session wire) = wire ++ [req]
           ∧ snd (run requests op base_url timeout session wire) = wire ++ [req]
           ∧ req_url req = Str.rstrip Str.is_slash base_url +:+ path op.
Proof.
  cbn zeta.
  assert (request_of op (base_url +:+ Str.replicate n "/") timeout
          = request_of op base_url timeout) as Hreq.
  { unfold request_of. by rewrite StrFacts.rstrip_slashes. }
  rewrite !run_spec. cbn zeta. rewrite Hreq. split; [reflexivity|].
  eexists. split; [reflexivity|]. split; [reflexivity|]. by destruct op.
Qed.

(** C10. With the empty string as bearer token [cast_vote] behaves as with
    no token: the request has no headers, hence no [Authorization] header. *)
Theorem cast_vote_empty_token requests poll_id option_id base_url timeout
    session wire :
  cast_vote requests poll_id option_id base_url timeout session (Some "") wire
  = cast_vote requests poll_id option_id base_url timeout session None wire
  ∧ ∃ req,
      snd (cast_vote requests poll_id option_id base_url timeout session
             (Some "") wire) = wire ++ [req]
      ∧ req_headers req = None
      ∧ header "Authorization" req = None.
Proof.
  split; [reflexivity|]. rewrite cast_vote_run. eexists.
  split; [reflexivity|]. split; reflexivity.
Qed.

(** * Further properties of the client *)

(** ** Requests *)

(** X1. [get_poll_results] puts exactly one request on the wire, whatever
    the transport answers: a GET to the base URL (trailing slashes removed)
    followed by [/polls/<poll_id>/results], with no query parameters, no
    JSON body and no headers, and with the caller's time-out. *)
Theorem get_poll_results_request requests poll_id base_url timeout session wire :
  snd (get_poll_results requests poll_id base_url timeout session wire)
  = wire ++ [ {| req_method := GET;
                 req_url := Str.rstrip Str.is_slash base_url
                            +:+ "/polls/" +:+ pretty poll_id +:+ "/results";
                 req_params := None; req_json := None; req_headers := None;
                 req_timeout := timeout |} ].
Proof. by rewrite get_poll_results_run. Qed.

(** X2. No operation retries or probes: the wire grows by exactly one
    request, and that request is fixed by the arguments alone.  It is the
    same whichever transport is used and whatever that transport answers. *)
Theorem one_request_whatever_happens requests requests' op base_url timeout
    session session' wire :
  ∃ req,
    snd (run requests op base_url timeout session wire) = wire ++ [req]
    ∧ snd (run requests' op base_url timeout session' wire) = wire ++ [req]
    ∧ length (snd (run requests op base_url timeout session wire))
      = S (length wire).
Proof.
  rewrite !run_spec. eexists. split; [reflexivity|]. split; [reflexivity|].
  cbn. rewrite length_app. cbn. lia.
Qed.

(** X3. [cast_vote] sets no header but [Authorization]: any other header
    name is absent from its request, with or without a token. *)
Theorem cast_vote_only_authorization requests poll_id option_id base_url
    timeout session bearer_token wire name :
  name ≠ "Authorization" →
  ∃ req,
    snd (cast_vote requests poll_id option_id base_url timeout session
           bearer_token wire) = wire ++ [req]
    ∧ header name req = None.
Proof.
  intros Hname. rewrite cast_vote_run. eexists. split; [reflexivity|].
  unfold header. cbn.
  destruct bearer_token as [token|]; [destruct (Str.truthy token)|];
    cbn; [|reflexivity..].
  by apply lookup_singleton_ne.
Qed.

Lemma cast_vote_only_authorization_witness :
  ∃ req,
    snd (cast_vote (Requests.answering Sample.vote_ok) 7 12 default_base_url
           default_timeout None (Some "s3cr3t") []) = [req]
    ∧ header "Content-Type" req = None.
Proof.
  apply (cast_vote_only_authorization (Requests.answering Sample.vote_ok) 7 12
           default_base_url default_timeout None (Some "s3cr3t") []
           "Content-Type").
  discriminate.
Defined.



(** ** Base URLs *)

(** X5. The URL of every request is a normalised base followed by the path
    of the operation: the base URL is the normalised base followed by a run
    of slashes, and the normalised base does not end in a slash. *)
Theorem request_url_normalised requests op base_url timeout session wire :
  ∃ base n req,
    base_url = base +:+ Str.replicate n "/"
    ∧ Str.endswith "/" base = false
    ∧ snd (run requests op base_url timeout session wire) = wire ++ [req]
    ∧ req_url req = base +:+ path op.
Proof.
  destruct (StripFacts.replicate_slash_split base_url) as [n Hn].
  exists (Str.rstrip Str.is_slash base_url), n. rewrite run_spec. eexists.
  split; [exact Hn|]. split.
  - apply StripFacts.endswith_slash. apply StripFacts.rstrip_last.
  - split; [reflexivity|]. by destruct op.
Qed.

(** X6. A base URL that does not end in a slash is used as it is. *)
Theorem base_url_used_as_is requests op base_url timeout session wire :
  Str.endswith "/" base_url = false →
  ∃ req,
    snd (run requests op base_url timeout session wire) = wire ++ [req]
    ∧ req_url req = base_url +:+ path op.
Proof.
  intros Hend. rewrite run_spec. eexists. split; [reflexivity|].
  assert (Str.rstrip Str.is_slash base_url = base_url) as Hid.
  { apply StripFacts.rstrip_id. by apply StripFacts.endswith_slash. }
  destruct op; cbn [request_of req_url]; by rewrite Hid.
Qed.

Lemma base_url_used_as_is_witness :
  ∃ req,
    snd (run (Requests.answering Sample.results_ok) (GetPollResults 7)
           default_base_url default_timeout None []) = [req]
    ∧ req_url req = "http://localhost:8000/polls/7/results".
Proof.
  apply (base_url_used_as_is (Requests.answering Sample.results_ok)
           (GetPollResults 7) default_base_url default_timeout None []).
  reflexivity.
Defined.

(** X7. A base URL made of slashes only, the empty one included, leaves
    nothing of itself: the request goes to the bare path. *)
Theorem slashes_only_base_url requests op n timeout session wire :
  ∃ req,
    snd (run requests op (Str.replicate n "/") timeout session wire)
    = wire ++ [req]
    ∧ req_url req = path op.
Proof.
  rewrite run_spec. eexists. split; [reflexivity|].
  assert (Str.rstrip Str.is_slash (Str.replicate n "/") = "") as Hnil.
  { by apply StrFacts.rstrip_replicate. }
  destruct op; cbn [request_of req_url]; by rewrite Hnil.
Qed.

(** X8. Two polls never share a URL: under one base URL, the requests of
    [cast_vote] for two different poll ids go to different URLs, and
    likewise for [get_poll_results]. *)
Theorem distinct_polls_distinct_urls requests base_url timeout session wire
    p1 p2 o1 o2 t1 t2 :
  p1 ≠ p2 →
  (∃ r1 r2,
     snd (cast_vote requests p1 o1 base_url timeout session t1 wire)
       = wire ++ [r1]
     ∧ snd (cast_vote requests p2 o2 base_url timeout session t2 wire)
       = wire ++ [r2]
     ∧ req_url r1 ≠ req_url r2)
  ∧ (∃ r1 r2,
       snd (get_poll_results requests p1 base_url timeout session wire)
         = wire ++ [r1]
       ∧ snd (get_poll_results requests p2 base_url timeout session wire)
         = wire ++ [r2]
       ∧ req_url r1 ≠ req_url r2).
Proof.
  intros Hne. rewrite !cast_vote_run, !get_poll_results_run.
  split; do 2 eexists; (split; [reflexivity|]); (split; [reflexivity|]);
    cbn [request_of req_url path]; intros H;
    do 2 apply String.app_inj in H;
    apply StripFacts.app_inj_r in H; by apply (inj pretty) in H.
Qed.

Lemma distinct_polls_distinct_urls_witness :
  ∃ r1 r2,
    snd (get_poll_results (Requests.answering Sample.results_ok) 7
           default_base_url default_timeout None []) = [r1]
    ∧ snd (get_poll_results (Requests.answering Sample.results_ok) 8
             default_base_url default_timeout None []) = [r2]
    ∧ req_url r1 ≠ req_url r2.
Proof.
  apply (distinct_polls_distinct_urls (Requests.answering Sample.results_ok)
           default_base_url default_timeout None [] 7 8 0 0 None None).
  discriminate.
Defined.

(** ** Outcomes *)

(** X9. An operation returns a value exactly when the transport answered
    with status 200 and a body that decodes to that value; no other status,
    2xx included, ever yields a result. *)
Theorem returns_iff_ok requests op base_url timeout session wire v :
  fst (run requests op base_url timeout session wire) = Returned v
  ↔ ∃ resp,
      session_or_requests requests session (request_of op base_url timeout)
        = inr resp
      ∧ status_code resp = 200
      ∧ json resp = inr v.
Proof.
  rewrite run_spec. cbn [fst]. unfold verdict. split.
  - destruct (session_or_requests _ _ _) as [e|resp]; [discriminate|].
    case_bool_decide as Hs.
    + destruct (json resp) as [e|v'] eqn:Hj; [discriminate|].
      intros [= ->]. by exists resp.
    + by destruct (raise_for_status resp) as [[]|].
  - intros (resp & -> & Hs & Hj). by rewrite bool_decide_eq_true_2, Hj.
Qed.

Lemma returns_iff_ok_witness :
  fst (run (Requests.answering Sample.vote_ok) (CastVote 7 12 None)
         default_base_url default_timeout None []) = Returned (to_json Sample.vote)
  ∧ ∀ v, fst (run (Requests.answering Sample.created) (CastVote 7 12 None)
                default_base_url default_timeout None []) ≠ Returned v.
Proof.
  split.
  - apply (returns_iff_ok (Requests.answering Sample.vote_ok)
             (CastVote 7 12 None) default_base_url default_timeout None []).
    exists Sample.vote_ok. by repeat split.
  - intros v Hv.
    apply (returns_iff_ok (Requests.answering Sample.created)
             (CastVote 7 12 None) default_base_url default_timeout None [])
      in Hv as (resp & [= <-] & Hs & _).
    discriminate Hs.
Defined.

(** X10. Whatever the transport and the response do, what an operation
    raises is an error of its own class or an exception of the library
    passing through: never an error that belongs to another operation. *)
Theorem never_another_operations_error requests op base_url timeout session
    wire e :
  fst (run requests op base_url timeout session wire) = Raised e →
  class_of e = own_class op ∨ class_of e = ClsLibrary.
Proof.
  rewrite run_spec. cbn [fst]. unfold verdict.
  destruct (session_or_requests _ _ _) as [e'|resp].
  { intros [= <-]. by right. }
  case_bool_decide.
  - destruct (json resp); [|discriminate]. intros [= <-]. by right.
  - destruct (raise_for_status resp) as [[]|]; intros [= <-];
      rewrite ?class_own_error; auto.
Qed.

Lemma never_another_operations_error_witness :
  ∃ e, fst (run (Requests.answering Sample.unavailable) (GetPollResults 7)
              default_base_url default_timeout None []) = Raised e
       ∧ (class_of e = ClsPollResultsFetchError ∨ class_of e = ClsLibrary).
Proof.
  eexists. split; [reflexivity|].
  apply (never_another_operations_error
           (Requests.answering Sample.unavailable) (GetPollResults 7)
           default_base_url default_timeout None []).
  reflexivity.
Defined.

(** X11. An operation raises an error of its own class exactly when the
    transport answered with a status other than 200 and
    [raise_for_status()] on that answer raised [HTTPError] or returned. *)
Theorem raises_own_error_iff requests op base_url timeout session wire :
  (∃ e, fst (run requests op base_url timeout session wire) = Raised e
        ∧ class_of e = own_class op)
  ↔ ∃ resp,
      session_or_requests requests session (request_of op base_url timeout)
        = inr resp
      ∧ status_code resp ≠ 200
      ∧ (raise_for_status resp = None
         ∨ ∃ msg, raise_for_status resp = Some (HTTPError msg)).
Proof.
  rewrite run_spec. cbn [fst]. unfold verdict. split.
  - intros (e & He & Hc).
    destruct (session_or_requests _ _ _) as [e'|resp].
    { injection He as <-. by destruct op. }
    exists resp. split; [reflexivity|].
    case_bool_decide as Hs.
    { destruct (json resp); [|discriminate]. injection He as <-.
      by destruct op. }
    split; [exact Hs|].
    destruct (raise_for_status resp) as [[m|c m]|]; eauto.
    injection He as <-. by destruct op.
  - intros (resp & -> & Hs & Hr). rewrite bool_decide_eq_false_2 by done.
    destruct Hr as [->|[msg ->]]; eexists;
      (split; [reflexivity|apply class_own_error]).
Qed.

Lemma raises_own_error_iff_witness :
  ∃ e, fst (run (Requests.answering Sample.unavailable) (GetPollResults 7)
              default_base_url default_timeout None []) = Raised e
       ∧ class_of e = ClsPollResultsFetchError.
Proof.
  apply (raises_own_error_iff (Requests.answering Sample.unavailable)
           (GetPollResults 7) default_base_url default_timeout None []).
  exists Sample.unavailable. split; [reflexivity|]. split; [discriminate|].
  right. eexists. reflexivity.
Defined.

(** X12. A 200 answer whose body does not decode is not turned into an
    error of the module: the exception that [json()] raised leaves the
    operation as it is. *)
Theorem undecodable_body_propagates requests op base_url timeout session wire
    resp e :
  session_or_requests requests session (request_of op base_url timeout)
    = inr resp →
  status_code resp = 200 →
  json resp = inl e →
  run requests op base_url timeout session wire
  = (Raised (Uncaught e), wire ++ [request_of op base_url timeout]).
Proof.
  intros Hresp Hs Hj. rewrite run_spec. cbn zeta. rewrite Hresp.
  unfold verdict. by rewrite bool_decide_eq_true_2, Hj.
Qed.

Lemma undecodable_body_propagates_witness :
  fst (fetch_polls (Requests.answering Sample.html_ok) 0 2 default_base_url
         default_timeout None [])
  = Raised (Uncaught (RequestsError "JSONDecodeError"
                        "Expecting value: line 1 column 1 (char 0)")).
Proof.
  exact (f_equal fst
           (undecodable_body_propagates (Requests.answering Sample.html_ok)
              (FetchPolls 0 2) default_base_url default_timeout None []
              Sample.html_ok _ eq_refl eq_refl eq_refl)).
Defined.

(** X13. The [except] clause catches [HTTPError] only: when
    [raise_for_status()] raises an exception of another class on an answer
    other than 200, that exception leaves the operation unchanged and
    unwrapped. *)
Theorem other_exception_not_caught requests op base_url timeout session wire
    resp cls msg :
  session_or_requests requests session (request_of op base_url timeout)
    = inr resp →
  status_code resp ≠ 200 →
  raise_for_status resp = Some (RequestsError cls msg) →
  run requests op base_url timeout session wire
  = (Raised (Uncaught (RequestsError cls msg)),
     wire ++ [request_of op base_url timeout]).
Proof.
  intros Hresp Hs Hr. rewrite run_spec. cbn zeta. rewrite Hresp.
  unfold verdict. by rewrite bool_decide_eq_false_2, Hr.
Qed.

Lemma other_exception_not_caught_witness :
  fst (cast_vote (Requests.answering Sample.hooked) 7 12 default_base_url
         default_timeout None None [])
  = Raised (Uncaught Sample.hook_failure).
Proof.
  exact (f_equal fst
           (other_exception_not_caught (Requests.answering Sample.hooked)
              (CastVote 7 12 None) default_base_url default_timeout None []
              Sample.hooked _ _ eq_refl ltac:(discriminate) eq_refl)).
Defined.

(** ** Error text *)

(** X14. When [raise_for_status()] raises [HTTPError] and the body is
    blank (absent, empty, or white space only), the text of the error is
    the message of the [HTTPError]. *)
Theorem blank_body_uses_exception_text requests op base_url timeout session
    wire resp msg :
  session_or_requests requests session (request_of op base_url timeout)
    = inr resp →
  status_code resp ≠ 200 →
  raise_for_status resp = Some (HTTPError msg) →
  Str.all Str.isspace (body_text resp) = true →
  fst (run requests op base_url timeout session wire)
  = Raised (own_error op
              (endpoint op +:+ " failed (" +:+ pretty (status_code resp)
               +:+ "): " +:+ msg)
              (Some (HTTPError msg))).
Proof.
  intros Hresp Hs Hr Hblank. rewrite run_spec. cbn [fst]. rewrite Hresp.
  unfold verdict. rewrite bool_decide_eq_false_2, Hr by done.
  apply StripFacts.strip_empty_iff in Hblank. by rewrite Hblank.
Qed.

Lemma blank_body_uses_exception_text_witness :
  fst (get_poll_results (Requests.answering Sample.unavailable) 7
         default_base_url default_timeout None [])
  = Raised (PollResultsFetchError
              ("GET /polls/7/results failed (503): "
               +:+ "503 Server Error: Service Unavailable for url: "
               +:+ Sample.results_url)
              (Some (HTTPError
                       ("503 Server Error: Service Unavailable for url: "
                        +:+ Sample.results_url)))).
Proof.
  exact (blank_body_uses_exception_text
           (Requests.answering Sample.unavailable) (GetPollResults 7)
           default_base_url default_timeout None [] Sample.unavailable _
           eq_refl ltac:(discriminate) eq_refl eq_refl).
Defined.

(** X15. When [raise_for_status()] raises [HTTPError] and the body is not
    blank, the text of the error is the middle of the body: the body is a
    blank margin, the text, and a blank margin; the text is not empty and
    neither begins nor ends with white space. *)
Theorem nonblank_body_is_trimmed requests op base_url timeout session wire
    resp msg :
  session_or_requests requests session (request_of op base_url timeout)
    = inr resp →
  status_code resp ≠ 200 →
  raise_for_status resp = Some (HTTPError msg) →
  Str.all Str.isspace (body_text resp) = false →
  ∃ detail left right,
    fst (run requests op base_url timeout session wire)
    = Raised (own_error op
                (endpoint op +:+ " failed (" +:+ pretty (status_code resp)
                 +:+ "): " +:+ detail)
                (Some (HTTPError msg)))
    ∧ body_text resp = left +:+ detail +:+ right
    ∧ Str.all Str.isspace left = true
    ∧ Str.all Str.isspace right = true
    ∧ detail ≠ ""
    ∧ (∀ a, Str.head detail = Some a → Str.isspace a = false)
    ∧ (∀ a, Str.last detail = Some a → Str.isspace a = false).
Proof.
  intros Hresp Hs Hr Hblank. rewrite run_spec. cbn [fst]. rewrite Hresp.
  unfold verdict. rewrite bool_decide_eq_false_2, Hr by done.
  assert (Str.strip (body_text resp) ≠ "") as Hne.
  { intros H%StripFacts.strip_empty_iff. congruence. }
  destruct (StripFacts.strip_split _ Hne) as (l & r & Hb & Hl & Hrt & Hh & Hla).
  exists (Str.strip (body_text resp)), l, r.
  rewrite or_else_truthy by done. by repeat split.
Qed.

Lemma nonblank_body_is_trimmed_witness :
  ∃ detail left right,
    fst (fetch_polls (Requests.answering Sample.not_found) 0 2
           default_base_url default_timeout None [])
    = Raised (PollsFetchError ("GET /polls failed (404): " +:+ detail)
                (Some (HTTPError ("404 Client Error: Not Found for url: "
                                  +:+ Sample.polls_url))))
    ∧ "  no such poll  " = left +:+ detail +:+ right
    ∧ detail ≠ "".
Proof.
  destruct (nonblank_body_is_trimmed (Requests.answering Sample.not_found)
              (FetchPolls 0 2) default_base_url default_timeout None []
              Sample.not_found _ eq_refl ltac:(discriminate) eq_refl eq_refl)
    as (d & l & r & Hrun & Hbody & _ & _ & Hne & _).
  exists d, l, r. split; [exact Hrun|]. split; [exact Hbody|exact Hne].
Defined.
